(** * Subcribe: the Cortex-to-OSC bridge of [main.py]

    A shallow embedding of the class [Subcribe] of [src/main.py] and the
    properties of its handlers.

    The object's own data are the attributes [flag], [streams], [pow_labels]
    and [met_labels].  Everything a method does besides updating them (a call
    on the Cortex client [self.c], a message on [self.osc_client], a [print])
    is recorded, in order, as an [effect]; an exception leaving a method is an
    [exn].  Band-power samples are Python floats, that is IEEE binary64
    numbers: they are the kernel's primitive floats here, with Python's
    [ZeroDivisionError] on a zero divisor written out. *)

From Stdlib Require Import ZArith Lia PrimFloat.
From stdpp Require Import base option list strings.

Set Warnings "-inexact-float".

(** ** Python values and builtins *)

(** The numbers and booleans that travel in a sample or an OSC message. *)
Inductive value :=
  | VInt (z : Z)
  | VFloat (x : float)
  | VBool (b : bool).

(** The exceptions the methods can raise. *)
Inductive exn :=
  | ZeroDivisionError
  | IndexError
  | AttributeError.

(** [sum(xs)] on a list of floats: the additions run left to right from the
    integer [0], which the first addition converts to [0.0].  (CPython 3.12
    and later also carry a compensation term for the rounding errors; the two
    agree whenever every partial sum is exact, as in the samples below, and
    the general statements use nothing of the sum but its value.) *)
Definition py_sum (xs : list float) : float :=
  fold_left PrimFloat.add xs 0%float.

(** [y == 0] on a float: true of both zeros, false of NaN. *)
Definition is_zero (y : float) : bool := PrimFloat.eqb y 0%float.

(** ** Payloads of the Cortex events (the [data] keyword argument) *)

Record labels_data := {
  streamName : string;
  labels : list string
}.

(** [{'eeg': [...], 'time': t}], and likewise for ['mot'] and ['met']. *)
Record sample := {
  channels : list value;
  time : float
}.

(** [{'signal': 1.0, 'dev': [4, 4, 4, 4, 4, 100], 'batteryPercent': 80,
    'time': t}]: the entries of ['dev'] are integers. *)
Record dev_data := {
  signal : float;
  dev : list Z;
  batteryPercent : Z;
  dev_time : float
}.

(** [{'pow': [5.251, 4.691, ...], 'time': t}]. *)
Record pow_data := {
  pow : list float;
  pow_time : float
}.

(** ** The object and what its methods do to the outside *)

(** The attributes of a [Subcribe] instance.  [streams], [pow_labels] and
    [met_labels] do not exist until their first assignment ([None]).  The
    lists they hold are never mutated by the class, so values suffice. *)
Record Subcribe := {
  flag : bool;
  streams : option (list string);
  pow_labels : option (list string);
  met_labels : option (list string)
}.

(** What a [print] call writes, before formatting. *)
Inductive printed :=
  | labels_are (stream_name : string) (stream_labels : list string)
  | eeg_data_line (data : sample)
  | motion_data_line (data : sample)
  | pm_data_line (data : sample)
  | text_line (s : string)
  | error_line (error_data : string).

Inductive effect :=
  | print (p : printed)
  | osc_send_message (address : string) (args : list value)
  | osc_close
  | c_set_wanted_headset (headsetId : string)
  | c_open
  | c_sub_request (streams : list string)
  | c_unsub_request (streams : list string)
  | c_close.

(** ** The monad of method bodies: state, exceptions, effect log *)

Inductive outcome (A : Type) :=
  | Return (a : A)
  | Raise (e : exn).
Arguments Return {A} a.
Arguments Raise {A} e.

Record run (A : Type) := Run {
  result : outcome A;
  self_after : Subcribe;
  emitted : list effect
}.
Arguments Run {A} _ _ _.
Arguments result {A} _.
Arguments self_after {A} _.
Arguments emitted {A} _.

Definition M (A : Type) : Type := Subcribe → run A.

#[global] Instance M_ret : MRet M := λ A a self, Run (Return a) self [].

#[global] Instance M_bind : MBind M := λ A B k m self,
  match m self with
  | Run (Return a) self' es =>
      match k a self' with
      | Run o self'' es' => Run o self'' (es ++ es')
      end
  | Run (Raise e) self' es => Run (Raise e) self' es
  end.

Definition raise {A} (e : exn) : M A := λ self, Run (Raise e) self [].

Definition perform (e : effect) : M unit := λ self, Run (Return ()) self [e].

(** Reading an attribute that always exists. *)
Definition read {A} (attr : Subcribe → A) : M A :=
  λ self, Run (Return (attr self)) self [].

(** Reading an attribute that may not have been assigned yet. *)
Definition read_attr {A} (attr : Subcribe → option A) : M A := λ self,
  match attr self with
  | Some a => Run (Return a) self []
  | None => Run (Raise AttributeError) self []
  end.

Definition update (f : Subcribe → Subcribe) : M unit :=
  λ self, Run (Return ()) (f self) [].

Definition set_flag (b : bool) (self : Subcribe) : Subcribe :=
  {| flag := b; streams := streams self;
     pow_labels := pow_labels self; met_labels := met_labels self |}.

Definition set_streams (l : list string) (self : Subcribe) : Subcribe :=
  {| flag := flag self; streams := Some l;
     pow_labels := pow_labels self; met_labels := met_labels self |}.

Definition set_pow_labels (l : list string) (self : Subcribe) : Subcribe :=
  {| flag := flag self; streams := streams self;
     pow_labels := Some l; met_labels := met_labels self |}.

Definition set_met_labels (l : list string) (self : Subcribe) : Subcribe :=
  {| flag := flag self; streams := streams self;
     pow_labels := pow_labels self; met_labels := Some l |}.

(** [xs[i]] for a constant index [i >= 0]. *)
Definition getitem {A} (xs : list A) (i : nat) : M A :=
  match xs !! i with
  | Some x => mret x
  | None => raise IndexError
  end.

(** [x / y] on floats. *)
Definition truediv (x y : float) : M float :=
  if is_zero y then raise ZeroDivisionError else mret (x / y)%float.

(** ** The methods of [Subcribe] *)

(** [__init__]: the two clients are built and the eight callbacks bound (the
    bindings are [handler] below); the only attribute set is [flag]. *)
Definition __init__ (app_client_id app_client_secret osc_ip : string)
    (osc_port : Z) : Subcribe :=
  {| flag := false; streams := None; pow_labels := None; met_labels := None |}.

Definition start (streams : list string) (headsetId : string) : M unit :=
  update (set_streams streams);;
  (if bool_decide (headsetId ≠ "")
   then perform (c_set_wanted_headset headsetId)
   else mret ());;
  perform c_open.

Definition sub (streams : list string) : M unit :=
  perform (c_sub_request streams).

Definition unsub (streams : list string) : M unit :=
  perform (c_unsub_request streams).

Definition on_new_data_labels (data : labels_data) : M unit :=
  let stream_name := streamName data in
  let stream_labels := labels data in
  perform (print (labels_are stream_name stream_labels));;
  if bool_decide (stream_name = "pow") then
    update (set_pow_labels stream_labels)
  else if bool_decide (stream_name = "met") then
    update (set_met_labels stream_labels)
  else mret ().

Definition on_new_eeg_data (data : sample) : M unit :=
  perform (print (eeg_data_line data)).

Definition on_new_mot_data (data : sample) : M unit :=
  perform (print (motion_data_line data)).

Definition on_new_dev_data (data : dev_data) : M unit :=
  connection_status ← getitem (dev data) 2;
  f ← read flag;
  if (connection_status <? 50)%Z && Bool.eqb f true then
    update (set_flag false)
  else if (connection_status >=? 50)%Z && Bool.eqb f false then
    update (set_flag true)
  else mret ().

Definition on_new_met_data (data : sample) : M unit :=
  perform (print (pm_data_line data)).

Definition on_new_pow_data (data : pow_data) : M unit :=
  let sum_pow := py_sum (pow data) in
  p0 ← getitem (pow data) 0; p5 ← getitem (pow data) 5;
  let sum_theta_pow := (p0 + p5)%float in
  p1 ← getitem (pow data) 1; p6 ← getitem (pow data) 6;
  let sum_alpha_pow := (p1 + p6)%float in
  p2 ← getitem (pow data) 2; p7 ← getitem (pow data) 7;
  let sum_beta_low_pow := (p2 + p7)%float in
  p3 ← getitem (pow data) 3; p8 ← getitem (pow data) 8;
  let sum_beta_high_pow := (p3 + p8)%float in
  p4 ← getitem (pow data) 4; p9 ← getitem (pow data) 9;
  let sum_gamma_pow := (p4 + p9)%float in
  theta_proportion ← truediv sum_theta_pow sum_pow;
  alpha_proportion ← truediv sum_alpha_pow sum_pow;
  beta_low_proportion ← truediv sum_beta_low_pow sum_pow;
  beta_high_proportion ← truediv sum_beta_high_pow sum_pow;
  gamma_proportion ← truediv sum_gamma_pow sum_pow;
  let meditation := (theta_proportion + alpha_proportion)%float in
  let attention :=
    (beta_low_proportion + beta_high_proportion + gamma_proportion)%float in
  f ← read flag;
  if (f : bool) then
    perform (osc_send_message "/pow_proportion"
      [VFloat theta_proportion; VFloat alpha_proportion;
       VFloat beta_low_proportion; VFloat beta_high_proportion;
       VFloat gamma_proportion; VFloat meditation; VFloat attention])
  else
    perform (osc_send_message "/pow_proportion"
      [VInt 0; VInt 0; VInt 0; VInt 0; VInt 0; VInt 0; VInt 0]).

Definition on_create_session_done : M unit :=
  perform (print (text_line "on_create_session_done"));;
  streams ← read_attr streams;
  sub streams.

Definition on_inform_error (error_data : string) : M unit :=
  perform (print (error_line error_data)).

Definition on_close : M unit :=
  perform (print (text_line "close cortex"));;
  perform c_close;;
  perform osc_close.

(** ** Events and calls *)

(** The events of the Cortex client, with the payload each delivers. *)
Inductive cortex_event :=
  | create_session_done
  | new_data_labels (data : labels_data)
  | new_eeg_data (data : sample)
  | new_mot_data (data : sample)
  | new_dev_data (data : dev_data)
  | new_met_data (data : sample)
  | new_pow_data (data : pow_data)
  | inform_error (error_data : string).

(** The callbacks bound by [__init__], one [self.c.bind] per line. *)
Definition handler (ev : cortex_event) : M unit :=
  match ev with
  | create_session_done => on_create_session_done
  | new_data_labels data => on_new_data_labels data
  | new_eeg_data data => on_new_eeg_data data
  | new_mot_data data => on_new_mot_data data
  | new_dev_data data => on_new_dev_data data
  | new_met_data data => on_new_met_data data
  | new_pow_data data => on_new_pow_data data
  | inform_error error_data => on_inform_error error_data
  end.

(** Everything that can be invoked on the object after construction: an
    event of the client, or one of the methods a caller uses directly. *)
Inductive call :=
  | Event (ev : cortex_event)
  | Start (streams : list string) (headsetId : string)
  | Sub (streams : list string)
  | Unsub (streams : list string)
  | Close.

Definition invoke (c : call) : M unit :=
  match c with
  | Event ev => handler ev
  | Start streams headsetId => start streams headsetId
  | Sub streams => sub streams
  | Unsub streams => unsub streams
  | Close => on_close
  end.

(** The object after a series of calls, each made on the object as the
    previous one left it (whether it returned or raised). *)
Definition after (cs : list call) (self : Subcribe) : Subcribe :=
  fold_left (λ s c, self_after (invoke c s)) cs self.

(** The value of [flag] after each call of a series. *)
Fixpoint flags_after (cs : list call) (self : Subcribe) : list bool :=
  match cs with
  | [] => []
  | c :: cs' =>
      let s := self_after (invoke c self) in flag s :: flags_after cs' s
  end.

(** The labels kept for a stream name: the attribute the labels handler
    assigns for it, if there is one. *)
Definition stored_labels (stream_name : string) (self : Subcribe)
    : option (list string) :=
  if bool_decide (stream_name = "pow") then pow_labels self
  else if bool_decide (stream_name = "met") then met_labels self
  else None.

(** The messages sent on the OSC client during a run. *)
Definition osc_messages {A} (r : run A) : list (string * list value) :=
  omap (λ e, match e with
             | osc_send_message address args => Some (address, args)
             | _ => None
             end) (emitted r).

(** The subscribe requests made on the Cortex client during a run. *)
Definition sub_requests {A} (r : run A) : list (list string) :=
  omap (λ e, match e with
             | c_sub_request streams => Some streams
             | _ => None
             end) (emitted r).

(** Whether the method a call runs contains an assignment to an attribute
    of [self]: [start] assigns [streams], the labels handler [pow_labels] or
    [met_labels], the device handler [flag]; no other method assigns. *)
Definition assigns (c : call) : bool :=
  match c with
  | Start _ _ => true
  | Event (new_data_labels _) => true
  | Event (new_dev_data _) => true
  | _ => false
  end.

(** The entry the device handler reads, [data['dev'][2]], for a call that
    delivers a device sample long enough to have one. *)
Definition quality_of (c : call) : option Z :=
  match c with
  | Event (new_dev_data data) => dev data !! 2
  | _ => None
  end.

(** The latest such entry in a series of calls. *)
Definition last_quality (cs : list call) : option Z :=
  last (omap quality_of cs).

(** ** Concrete objects and samples *)

(** The object as the script builds it, and the same object once a device
    sample has raised [flag]. *)
Definition initial : Subcribe :=
  __init__ "client_id" "client_secret" "127.0.0.1" 9000.

Definition connected : Subcribe := set_flag true initial.

Definition samples (values : list float) : pow_data :=
  {| pow := values; pow_time := 1627459390.1729%float |}.

(** Twenty-five samples, site by site (AF3, T7, Pz, T8, AF4), all zero but
    T7/theta and T8/theta. *)
Definition theta_at_T7_T8 : list float :=
  [0; 0; 0; 0; 0;  1; 0; 0; 0; 0;  0; 0; 0; 0; 0;
   3; 0; 0; 0; 0;  0; 0; 0; 0; 0]%float.

(** Ten samples 1.0, and the same ten followed by two that cancel out. *)
Definition ten_ones : list float := replicate 10 1%float.
Definition ten_ones_and_two : list float := (ten_ones ++ [1; -1])%float.

(** A device sample whose ['dev'] list is that of the docstring with the
    entry at index 2 replaced by [q]. *)
Definition dev_sample (q : Z) : dev_data :=
  {| signal := 1%float; dev := [4; 4; q; 4; 4; 100]%Z;
     batteryPercent := 80; dev_time := 1627459265.4463%float |}.

(** ** Running method bodies *)

Lemma lookup_nth {A} (xs : list A) (i : nat) (d : A) :
  i < length xs → xs !! i = Some (nth i xs d).
Proof.
  revert i; induction xs as [|x xs IH]; intros [|i] Hi; simpl in *;
    try lia; [reflexivity|]. apply IH; lia.
Qed.

(** Two floats that [==] tells apart are different. *)
Lemma float_neq (x y : float) : PrimFloat.eqb x y ≠ PrimFloat.eqb y y → x ≠ y.
Proof. intros H ->. apply H. reflexivity. Qed.

(** Unfolding the monad's operations in a body whose reads have been
    resolved. *)
Ltac run_body :=
  unfold mbind, M_bind, mret, M_ret, raise, read, read_attr, perform, update;
  simpl.

(** The ten reads of the band-power handler succeed on ten or more samples. *)
Ltac read_samples H :=
  unfold on_new_pow_data, getitem;
  rewrite !(lookup_nth _ _ 0%float) by (rewrite ?H; lia).

(** The band-power handler on a vector of ten or more samples whose sum is
    not zero: every step succeeds, the object is left as it was, and one
    message goes out, chosen by [flag]. *)
Lemma on_new_pow_data_runs (data : pow_data) (self : Subcribe) :
  10 ≤ length (pow data) →
  is_zero (py_sum (pow data)) = false →
  let v i := nth i (pow data) 0%float in
  let p b := ((v b + v (5 + b)%nat) / py_sum (pow data))%float in
  let theta := p 0 in let alpha := p 1 in let beta_low := p 2 in
  let beta_high := p 3 in let gamma := p 4 in
  on_new_pow_data data self =
    Run (Return ()) self
      [osc_send_message "/pow_proportion"
         (if flag self
          then [VFloat theta; VFloat alpha; VFloat beta_low; VFloat beta_high;
                VFloat gamma; VFloat (theta + alpha)%float;
                VFloat (beta_low + beta_high + gamma)%float]
          else [VInt 0; VInt 0; VInt 0; VInt 0; VInt 0; VInt 0; VInt 0])].
Proof.
  intros Hlen Hz v p. read_samples Hlen.
  unfold truediv. rewrite Hz. subst v p. run_body.
  destruct (flag self); reflexivity.
Qed.

(** On a zero sum the first division raises: nothing has been sent and the
    object is untouched. *)
Lemma on_new_pow_data_zero_sum (data : pow_data) (self : Subcribe) :
  10 ≤ length (pow data) →
  is_zero (py_sum (pow data)) = true →
  on_new_pow_data data self = Run (Raise ZeroDivisionError) self [].
Proof.
  intros Hlen Hz. read_samples Hlen.
  unfold truediv. rewrite Hz. run_body. reflexivity.
Qed.

(** When the headset is not connected and the sum is not zero, the handler
    sends the seven integer zeros, once, whatever the samples are. *)
Lemma on_new_pow_data_disconnected (data : pow_data) (self : Subcribe) :
  10 ≤ length (pow data) →
  is_zero (py_sum (pow data)) = false →
  flag self = false →
  on_new_pow_data data self =
    Run (Return ()) self
      [osc_send_message "/pow_proportion"
         [VInt 0; VInt 0; VInt 0; VInt 0; VInt 0; VInt 0; VInt 0]].
Proof.
  intros Hlen Hz Hf.
  rewrite (on_new_pow_data_runs data self Hlen Hz). rewrite Hf. reflexivity.
Qed.

(** ** The band-power handler *)

(** C1, as stated, fails: on a vector whose only non-zero samples are
    T7/theta = 1 (index 5) and T8/theta = 3 (index 15), with the headset
    connected, the theta proportion sent is 0.25 = (values[0] + values[5]) /
    sum(values) and not 0.75 = (values[0] + values[15]) / sum(values). *)
Lemma theta_total_not_from_site_3 :
  osc_messages (on_new_pow_data (samples theta_at_T7_T8) connected) =
    [("/pow_proportion",
      [VFloat 0.25; VFloat 0; VFloat 0; VFloat 0; VFloat 0;
       VFloat 0.25; VFloat 0])]
  ∧ ((nth 0 theta_at_T7_T8 0 + nth 15 theta_at_T7_T8 0)
       / py_sum theta_at_T7_T8)%float = 0.75%float
  ∧ 0.25%float ≠ 0.75%float.
Proof.
  split; [reflexivity|]. split; [reflexivity|].
  apply float_neq. vm_compute. discriminate.
Qed.

(** C1, amended: for every band-power vector of 25 floats whose sum is not
    zero, received while the headset is connected, the handler sends one
    message of seven values on "/pow_proportion" in which the proportion of
    each band b is (values[b] + values[5+b]) / sum(values): the per-band
    total is taken from sites 0 and 1 of the layout. *)
Theorem pow_proportions_from_sites_0_and_1 (data : pow_data) (self : Subcribe) :
  length (pow data) = 25 →
  is_zero (py_sum (pow data)) = false →
  flag self = true →
  ∃ args,
    osc_messages (on_new_pow_data data self) = [("/pow_proportion", args)]
    ∧ length args = 7
    ∧ ∀ b, b < 5 →
        args !! b =
          Some (VFloat ((nth b (pow data) 0 + nth (5 + b) (pow data) 0)
                          / py_sum (pow data))%float).
Proof.
  intros Hlen Hz Hf.
  rewrite (on_new_pow_data_runs data self) by (rewrite ?Hlen; lia || done).
  rewrite Hf. eexists. split; [reflexivity|]. split; [reflexivity|].
  intros b Hb.
  destruct b as [|[|[|[|[|b]]]]]; try reflexivity. lia.
Qed.

Lemma pow_proportions_from_sites_0_and_1_witness :
  ∃ args,
    osc_messages (on_new_pow_data (samples theta_at_T7_T8) connected) =
      [("/pow_proportion", args)]
    ∧ length args = 7
    ∧ ∀ b, b < 5 →
        args !! b =
          Some (VFloat ((nth b theta_at_T7_T8 0 + nth (5 + b) theta_at_T7_T8 0)
                          / py_sum theta_at_T7_T8)%float).
Proof.
  apply (pow_proportions_from_sites_0_and_1 (samples theta_at_T7_T8) connected);
    reflexivity.
Defined.

(** C2: on the vector of 25 zeros the sum is zero and the handler raises
    [ZeroDivisionError] at its first division, connected or not; nothing is
    sent before the exception leaves the handler. *)
Theorem zero_sum_raises_out_of_pow_handler :
  is_zero (py_sum (replicate 25 0%float)) = true
  ∧ on_new_pow_data (samples (replicate 25 0%float)) connected =
      Run (Raise ZeroDivisionError) connected []
  ∧ on_new_pow_data (samples (replicate 25 0%float)) initial =
      Run (Raise ZeroDivisionError) initial [].
Proof. repeat split; reflexivity. Qed.

(** C3: with [flag] false, the vector of 25 zeros produces no message at all
    (the handler has raised before reaching the branch that sends the seven
    zeros), where the claim asks for one. *)
Theorem disconnected_zero_sum_sends_nothing :
  flag initial = false
  ∧ result (on_new_pow_data (samples (replicate 25 0%float)) initial) =
      Raise ZeroDivisionError
  ∧ osc_messages (on_new_pow_data (samples (replicate 25 0%float)) initial) = [].
Proof. repeat split; reflexivity. Qed.

(** C6: for every band-power vector whose sum is not zero, the last two of
    the seven values sent are meditation = theta + alpha and attention =
    betaLow + betaHigh + gamma (added left to right) of the five sent before
    them: the computed proportions when the headset is connected, the
    integer zeros when it is not; on 25 samples 1.0, connected, the
    proportions are the float 0.08, meditation is 0.16 and attention 0.24. *)
Theorem composite_indices_are_sums_of_proportions :
  (∀ data self,
     length (pow data) = 25 →
     is_zero (py_sum (pow data)) = false →
     flag self = true →
     ∃ theta alpha beta_low beta_high gamma,
       osc_messages (on_new_pow_data data self) =
         [("/pow_proportion",
           [VFloat theta; VFloat alpha; VFloat beta_low; VFloat beta_high;
            VFloat gamma; VFloat (theta + alpha)%float;
            VFloat (beta_low + beta_high + gamma)%float])])
  ∧ (∀ data self,
       length (pow data) = 25 →
       is_zero (py_sum (pow data)) = false →
       flag self = false →
       ∃ theta alpha beta_low beta_high gamma,
         osc_messages (on_new_pow_data data self) =
           [("/pow_proportion",
             [VInt theta; VInt alpha; VInt beta_low; VInt beta_high;
              VInt gamma; VInt (theta + alpha)%Z;
              VInt (beta_low + beta_high + gamma)%Z])])
  ∧ osc_messages (on_new_pow_data (samples (replicate 25 1%float)) connected) =
      [("/pow_proportion",
        [VFloat 0.08; VFloat 0.08; VFloat 0.08; VFloat 0.08; VFloat 0.08;
         VFloat 0.16; VFloat 0.24])].
Proof.
  split; [|split; [|reflexivity]].
  - intros data self Hlen Hz Hf.
    rewrite (on_new_pow_data_runs data self) by (rewrite ?Hlen; lia || done).
    rewrite Hf. do 5 eexists. reflexivity.
  - intros data self Hlen Hz Hf.
    rewrite (on_new_pow_data_disconnected data self)
      by (rewrite ?Hlen; lia || done).
    exists 0%Z, 0%Z, 0%Z, 0%Z, 0%Z. reflexivity.
Qed.

Lemma composite_indices_are_sums_of_proportions_witness :
  ∃ theta alpha beta_low beta_high gamma,
    osc_messages (on_new_pow_data (samples theta_at_T7_T8) connected) =
      [("/pow_proportion",
        [VFloat theta; VFloat alpha; VFloat beta_low; VFloat beta_high;
         VFloat gamma; VFloat (theta + alpha)%float;
         VFloat (beta_low + beta_high + gamma)%float])].
Proof.
  apply (proj1 composite_indices_are_sums_of_proportions
           (samples theta_at_T7_T8) connected); reflexivity.
Defined.

(** Case analysis on the ten reads of the band-power handler, in the order
    they are made; [fin] closes the case where a read is out of range. *)
Ltac case_read i fin :=
  match goal with
  | |- context [?xs !! i] => destruct (xs !! i); [|solve [fin]]
  end.

Ltac case_reads fin :=
  unfold on_new_pow_data, getitem;
  case_read 0 fin; case_read 5 fin; case_read 1 fin; case_read 6 fin;
  case_read 2 fin; case_read 7 fin; case_read 3 fin; case_read 8 fin;
  case_read 4 fin; case_read 9 fin.

(** On fewer than ten samples one of the reads is out of range: the handler
    raises [IndexError] and sends nothing. *)
Lemma on_new_pow_data_short (data : pow_data) (self : Subcribe) :
  length (pow data) < 10 →
  on_new_pow_data data self = Run (Raise IndexError) self [].
Proof.
  intros Hlen. unfold on_new_pow_data, getitem.
  destruct (pow data !! 9) as [p9|] eqn:H9.
  { apply lookup_lt_Some in H9. lia. }
  case_read 0 ltac:(reflexivity). case_read 5 ltac:(reflexivity).
  case_read 1 ltac:(reflexivity). case_read 6 ltac:(reflexivity).
  case_read 2 ltac:(reflexivity). case_read 7 ltac:(reflexivity).
  case_read 3 ltac:(reflexivity). case_read 8 ltac:(reflexivity).
  case_read 4 ltac:(reflexivity). reflexivity.
Qed.

(** The band-power handler never assigns an attribute, and reads none but
    [flag]. *)
Lemma on_new_pow_data_keeps_self (data : pow_data) (self : Subcribe) :
  self_after (on_new_pow_data data self) = self.
Proof.
  case_reads ltac:(reflexivity).
  unfold truediv. destruct (is_zero _); [reflexivity|].
  run_body. destruct (flag self); reflexivity.
Qed.

Lemma on_new_pow_data_reads_flag_only (data : pow_data) (self1 self2 : Subcribe) :
  flag self1 = flag self2 →
  result (on_new_pow_data data self1) = result (on_new_pow_data data self2)
  ∧ emitted (on_new_pow_data data self1) = emitted (on_new_pow_data data self2).
Proof.
  intros Hf. case_reads ltac:(split; reflexivity).
  unfold truediv. destruct (is_zero _); [split; reflexivity|].
  run_body. rewrite Hf. destruct (flag self2); split; reflexivity.
Qed.

(** C9: the outcome of the band-power handler and the message it sends
    depend only on the first ten samples, the sum and [flag]: two vectors
    that agree at every index below 10 (present or not) and have the same
    sum, handled under the same [flag], give the same outcome and the same
    effects; and a vector of exactly ten samples with a non-zero sum is
    handled without an exception, with one message sent. *)
Theorem pow_handler_reads_ten_samples_sum_and_flag :
  (∀ data1 data2 self1 self2,
     (∀ i, i < 10 → pow data1 !! i = pow data2 !! i) →
     py_sum (pow data1) = py_sum (pow data2) →
     flag self1 = flag self2 →
     result (on_new_pow_data data1 self1) = result (on_new_pow_data data2 self2)
     ∧ emitted (on_new_pow_data data1 self1) =
         emitted (on_new_pow_data data2 self2))
  ∧ (∀ data self,
       length (pow data) = 10 →
       is_zero (py_sum (pow data)) = false →
       result (on_new_pow_data data self) = Return ()
       ∧ ∃ args,
           osc_messages (on_new_pow_data data self) =
             [("/pow_proportion", args)]).
Proof.
  split.
  - intros data1 data2 self1 self2 Hten Hsum Hf.
    assert (on_new_pow_data data1 self1 = on_new_pow_data data2 self1) as ->.
    { unfold on_new_pow_data, getitem.
      rewrite !Hten by lia. rewrite Hsum. reflexivity. }
    apply on_new_pow_data_reads_flag_only, Hf.
  - intros data self Hlen Hz.
    rewrite (on_new_pow_data_runs data self) by (rewrite ?Hlen; lia || done).
    split; [reflexivity|]. eexists. reflexivity.
Qed.

Lemma pow_handler_reads_ten_samples_sum_and_flag_witness :
  (result (on_new_pow_data (samples ten_ones) connected) =
     result (on_new_pow_data (samples ten_ones_and_two) connected)
   ∧ emitted (on_new_pow_data (samples ten_ones) connected) =
       emitted (on_new_pow_data (samples ten_ones_and_two) connected))
  ∧ (result (on_new_pow_data (samples ten_ones) connected) = Return ()
     ∧ ∃ args,
         osc_messages (on_new_pow_data (samples ten_ones) connected) =
           [("/pow_proportion", args)]).
Proof.
  split.
  - apply (proj1 pow_handler_reads_ten_samples_sum_and_flag
             (samples ten_ones) (samples ten_ones_and_two) connected connected).
    + intros i Hi. do 10 (destruct i as [|i]; [reflexivity|]). lia.
    + reflexivity.
    + reflexivity.
  - apply (proj2 pow_handler_reads_ten_samples_sum_and_flag
             (samples ten_ones) connected); reflexivity.
Defined.

(** ** The connectivity flag *)

(** The device handler on a list with an entry at index 2: it returns, makes
    no call and no print, and assigns [flag] only on a crossing. *)
Lemma on_new_dev_data_runs (data : dev_data) (q : Z) (self : Subcribe) :
  dev data !! 2 = Some q →
  on_new_dev_data data self =
    Run (Return ())
      (if (q <? 50)%Z && flag self then set_flag false self
       else if (q >=? 50)%Z && negb (flag self) then set_flag true self
       else self)
      [].
Proof.
  intros Hq. unfold on_new_dev_data, getitem. rewrite Hq. run_body.
  destruct (q <? 50)%Z, (q >=? 50)%Z, (flag self); reflexivity.
Qed.

Lemma on_new_dev_data_flag (data : dev_data) (q : Z) (self : Subcribe) :
  dev data !! 2 = Some q →
  flag (self_after (on_new_dev_data data self)) = (q >=? 50)%Z.
Proof.
  intros Hq. rewrite (on_new_dev_data_runs data q self Hq). simpl.
  destruct (Z.ltb_spec q 50), (Z.geb_spec q 50), (flag self) eqn:Hf;
    simpl; try rewrite Hf; try reflexivity; lia.
Qed.

Lemma after_app (cs1 cs2 : list call) (self : Subcribe) :
  after (cs1 ++ cs2) self = after cs2 (after cs1 self).
Proof. apply fold_left_app. Qed.

(** C4: after any series of device samples delivered to the object from its
    initial state, [flag] is true iff the entry at index 2 of the latest
    sample is at least 50; the qualities 10, 60, 40, 70 give the flags
    false, true, false, true; and a sample whose quality is on the side of
    the threshold the flag already records leaves the object unchanged. *)
Theorem flag_follows_latest_quality :
  (∀ (ds : list dev_data) (data : dev_data) (q : Z) a b c d,
     dev data !! 2 = Some q →
     flag (after (map (λ data, Event (new_dev_data data)) (ds ++ [data]))
             (__init__ a b c d)) = true ↔ (q >= 50)%Z)
  ∧ flags_after (map (λ q, Event (new_dev_data (dev_sample q))) [10; 60; 40; 70]%Z)
      initial = [false; true; false; true]
  ∧ (∀ data q self,
       dev data !! 2 = Some q →
       (flag self = true ↔ (q >= 50)%Z) →
       self_after (on_new_dev_data data self) = self).
Proof.
  split; [|split].
  - intros ds data q a b c d Hq.
    rewrite map_app, after_app. simpl.
    unfold after at 1; simpl.
    rewrite (on_new_dev_data_flag data q _ Hq).
    destruct (Z.geb_spec q 50); split; intros; try done; lia.
  - reflexivity.
  - intros data q self Hq Hside.
    rewrite (on_new_dev_data_runs data q self Hq). simpl.
    destruct (Z.ltb_spec q 50), (Z.geb_spec q 50), (flag self);
      simpl; try reflexivity; try lia;
      destruct Hside as [Hup Hdown];
      first [specialize (Hup eq_refl); lia | discriminate Hdown; lia].
Qed.

Lemma flag_follows_latest_quality_witness :
  (flag (after (map (λ data, Event (new_dev_data data))
                  ([dev_sample 10; dev_sample 60] ++ [dev_sample 40]))
           initial) = true ↔ (40 >= 50)%Z)
  ∧ self_after (on_new_dev_data (dev_sample 30) initial) = initial.
Proof.
  split.
  - apply (proj1 flag_follows_latest_quality
             [dev_sample 10; dev_sample 60] (dev_sample 40) 40%Z).
    reflexivity.
  - apply (proj2 (proj2 flag_follows_latest_quality)
             (dev_sample 30) 30%Z initial).
    + reflexivity.
    + split; [discriminate | lia].
Defined.

(** C10: on a device list of three entries or more the handler returns and
    leaves [flag] equal to [d[2] >= 50], whatever [flag] was and whatever the
    other entries and fields of the sample are: two samples with the same
    entry at index 2 are handled identically. *)
Theorem dev_handler_reads_index_2 :
  (∀ data self,
     3 ≤ length (dev data) →
     result (on_new_dev_data data self) = Return ()
     ∧ flag (self_after (on_new_dev_data data self)) =
         (nth 2 (dev data) 0 >=? 50)%Z)
  ∧ (∀ data1 data2 self,
       dev data1 !! 2 = dev data2 !! 2 →
       on_new_dev_data data1 self = on_new_dev_data data2 self).
Proof.
  split.
  - intros data self Hlen.
    assert (dev data !! 2 = Some (nth 2 (dev data) 0%Z)) as Hq
      by (apply lookup_nth; lia).
    split; [|apply on_new_dev_data_flag, Hq].
    rewrite (on_new_dev_data_runs data _ self Hq). reflexivity.
  - intros data1 data2 self H2.
    unfold on_new_dev_data, getitem. rewrite H2. reflexivity.
Qed.

Lemma dev_handler_reads_index_2_witness :
  (result (on_new_dev_data (dev_sample 60) initial) = Return ()
   ∧ flag (self_after (on_new_dev_data (dev_sample 60) initial)) = true)
  ∧ on_new_dev_data (dev_sample 60) connected =
      on_new_dev_data
        {| signal := 0%float; dev := [0; 0; 60; 1]%Z; batteryPercent := 5;
           dev_time := 0%float |} connected.
Proof.
  split.
  - apply (proj1 dev_handler_reads_index_2 (dev_sample 60) initial).
    simpl; lia.
  - apply (proj2 dev_handler_reads_index_2). reflexivity.
Defined.

(** ** The labels handler *)

(** C5, as stated, fails: labels announced for the stream "eeg" are printed
    and then dropped; the object is left as it was and holds no labels for
    "eeg". *)
Lemma eeg_labels_not_kept :
  self_after
    (on_new_data_labels {| streamName := "eeg"; labels := ["AF3"; "T7"] |}
       initial) = initial
  ∧ stored_labels "eeg"
      (self_after
         (on_new_data_labels {| streamName := "eeg"; labels := ["AF3"; "T7"] |}
            initial)) ≠ Some ["AF3"; "T7"].
Proof. split; [reflexivity | discriminate]. Qed.

(** C5, amended: for the stream names "pow" and "met" and every label
    sequence L, the labels handler overwrites the labels kept for that name,
    and reading them afterwards gives exactly L; for every other stream name
    the handler keeps nothing and leaves the object unchanged. *)
Theorem labels_kept_for_pow_and_met (data : labels_data) (self : Subcribe) :
  (streamName data = "pow" ∨ streamName data = "met" →
     stored_labels (streamName data)
       (self_after (on_new_data_labels data self)) = Some (labels data))
  ∧ (streamName data ≠ "pow" → streamName data ≠ "met" →
       self_after (on_new_data_labels data self) = self).
Proof.
  unfold on_new_data_labels, stored_labels. split.
  - intros [H|H]; rewrite H; reflexivity.
  - intros Hpow Hmet.
    rewrite (bool_decide_eq_false_2 _ Hpow), (bool_decide_eq_false_2 _ Hmet).
    reflexivity.
Qed.

Lemma labels_kept_for_pow_and_met_witness :
  stored_labels "pow"
    (self_after
       (on_new_data_labels
          {| streamName := "pow"; labels := ["AF3/theta"; "AF3/alpha"] |}
          initial)) = Some ["AF3/theta"; "AF3/alpha"].
Proof.
  apply (proj1 (labels_kept_for_pow_and_met
                  {| streamName := "pow"; labels := ["AF3/theta"; "AF3/alpha"] |}
                  initial)).
  left; reflexivity.
Defined.

(** ** What the calls leave alone *)

(** C7: [flag] is false in the object [__init__] builds, and no call other
    than the delivery of a device sample changes it, from any state. *)
Theorem flag_changed_by_dev_handler_only :
  (∀ a b c d, flag (__init__ a b c d) = false)
  ∧ (∀ (c : call) (self : Subcribe),
       (∀ data, c ≠ Event (new_dev_data data)) →
       flag (self_after (invoke c self)) = flag self).
Proof.
  split; [reflexivity|].
  intros c self Hc. destruct c as [ev|st h|st|st|]; simpl.
  - destruct ev as [|data|data|data|data|data|data|e]; simpl;
      try reflexivity.
    + unfold on_create_session_done, read_attr. run_body.
      destruct (streams self); reflexivity.
    + unfold on_new_data_labels. run_body.
      repeat case_bool_decide; reflexivity.
    + destruct (Hc data); reflexivity.
    + rewrite on_new_pow_data_keeps_self. reflexivity.
  - unfold start. case_bool_decide; reflexivity.
  - reflexivity.
  - reflexivity.
  - reflexivity.
Qed.

Lemma flag_changed_by_dev_handler_only_witness :
  flag (self_after (invoke (Event (new_pow_data (samples ten_ones))) connected))
    = flag connected.
Proof.
  apply (proj2 flag_changed_by_dev_handler_only). discriminate.
Defined.

(** Only [start] assigns [streams]. *)
Lemma invoke_keeps_streams (c : call) (self : Subcribe) :
  (∀ st h, c ≠ Start st h) →
  streams (self_after (invoke c self)) = streams self.
Proof.
  intros Hc. destruct c as [ev|st h|st|st|]; simpl; try reflexivity.
  - destruct ev as [|data|data|data|data|data|data|e]; simpl;
      try reflexivity.
    + unfold on_create_session_done, read_attr. run_body.
      destruct (streams self) eqn:Hst; simpl; rewrite Hst; reflexivity.
    + unfold on_new_data_labels. run_body.
      repeat case_bool_decide; reflexivity.
    + unfold on_new_dev_data, getitem.
      destruct (dev data !! 2) as [q|]; [|reflexivity]. run_body.
      destruct (q <? 50)%Z, (q >=? 50)%Z, (flag self); reflexivity.
    + rewrite on_new_pow_data_keeps_self. reflexivity.
  - destruct (Hc st h); reflexivity.
Qed.

Lemma after_keeps_streams (cs : list call) (self : Subcribe) :
  Forall (λ c, ∀ st h, c ≠ Start st h) cs →
  streams (after cs self) = streams self.
Proof.
  intros Hcs. revert self.
  induction Hcs as [|c cs Hc _ IH]; intros self; [reflexivity|].
  unfold after in *; simpl. rewrite IH. apply invoke_keeps_streams, Hc.
Qed.

(** ** Session creation *)

(** C8: once [start(streams, headsetId)] has been called, whatever calls
    other than [start] come in between, the session-created callback prints
    its line and makes exactly one subscribe request, for the list recorded
    by that [start]; it returns and leaves the object as it found it. *)
Theorem session_created_subscribes_recorded_streams
    (recorded : list string) (headsetId : string) (cs : list call)
    (self : Subcribe) :
  Forall (λ c, ∀ st h, c ≠ Start st h) cs →
  let self' := after (Start recorded headsetId :: cs) self in
  handler create_session_done self' =
    Run (Return ()) self'
      [print (text_line "on_create_session_done"); c_sub_request recorded]
  ∧ sub_requests (handler create_session_done self') = [recorded].
Proof.
  intros Hcs self'.
  assert (streams self' = Some recorded) as Hst.
  { subst self'. unfold after; simpl. fold (after cs).
    rewrite (after_keeps_streams cs _ Hcs).
    unfold start. case_bool_decide; reflexivity. }
  assert (handler create_session_done self' =
            Run (Return ()) self'
              [print (text_line "on_create_session_done");
               c_sub_request recorded]) as ->.
  { simpl. unfold on_create_session_done, read_attr, sub. run_body.
    rewrite Hst. reflexivity. }
  split; reflexivity.
Qed.

Lemma session_created_subscribes_recorded_streams_witness :
  let self' :=
    after [Start ["met"; "pow"; "dev"] "";
           Event (new_data_labels {| streamName := "pow"; labels := [] |});
           Event (new_dev_data (dev_sample 80))] initial in
  handler create_session_done self' =
    Run (Return ()) self'
      [print (text_line "on_create_session_done");
       c_sub_request ["met"; "pow"; "dev"]]
  ∧ sub_requests (handler create_session_done self') = [["met"; "pow"; "dev"]].
Proof.
  apply (session_created_subscribes_recorded_streams ["met"; "pow"; "dev"] ""
           [Event (new_data_labels {| streamName := "pow"; labels := [] |});
            Event (new_dev_data (dev_sample 80))] initial).
  repeat constructor; discriminate.
Defined.

(** ** Outcomes and effects of the band-power handler *)

(** The three ways the band-power handler can end, by the length of the
    vector and its sum. *)
Lemma on_new_pow_data_cases (data : pow_data) (self : Subcribe) :
  (length (pow data) < 10
   ∧ on_new_pow_data data self = Run (Raise IndexError) self [])
  ∨ (10 ≤ length (pow data) ∧ is_zero (py_sum (pow data)) = true
     ∧ on_new_pow_data data self = Run (Raise ZeroDivisionError) self [])
  ∨ (10 ≤ length (pow data) ∧ is_zero (py_sum (pow data)) = false
     ∧ ∃ args, length args = 7
         ∧ on_new_pow_data data self =
             Run (Return ()) self [osc_send_message "/pow_proportion" args]).
Proof.
  destruct (decide (length (pow data) < 10)) as [Hlen|Hlen].
  { left. split; [exact Hlen|]. apply on_new_pow_data_short, Hlen. }
  right. assert (10 ≤ length (pow data)) as Hten by lia.
  destruct (is_zero (py_sum (pow data))) eqn:Hz.
  { left. repeat split; [exact Hten|]. apply on_new_pow_data_zero_sum; done. }
  right. repeat split; [exact Hten|].
  rewrite (on_new_pow_data_runs data self Hten Hz).
  destruct (flag self); eexists; (split; [|reflexivity]); reflexivity.
Qed.

(** X1: the band-power handler raises [IndexError] exactly on vectors of
    fewer than ten samples, raises [ZeroDivisionError] exactly on vectors of
    ten samples or more whose sum is zero, and returns exactly on vectors of
    ten samples or more whose sum is not zero, whatever [flag] is. *)
Theorem pow_handler_outcome (data : pow_data) (self : Subcribe) :
  (result (on_new_pow_data data self) = Raise IndexError
     ↔ length (pow data) < 10)
  ∧ (result (on_new_pow_data data self) = Raise ZeroDivisionError
       ↔ 10 ≤ length (pow data) ∧ is_zero (py_sum (pow data)) = true)
  ∧ (result (on_new_pow_data data self) = Return ()
       ↔ 10 ≤ length (pow data) ∧ is_zero (py_sum (pow data)) = false).
Proof.
  destruct (on_new_pow_data_cases data self)
    as [[Hlen ->]|[(Hlen & Hz & ->)|(Hlen & Hz & args & _ & ->)]]; simpl;
    repeat split; intros; try done; try lia;
    try (destruct_and?; congruence || lia).
Qed.

(** X2: the band-power handler never assigns an attribute; when it returns
    it has sent exactly one message, on "/pow_proportion" and of seven
    values, and made no other call or print; when it raises it has done
    nothing at all. *)
Theorem pow_handler_sends_one_message_or_nothing
    (data : pow_data) (self : Subcribe) :
  self_after (on_new_pow_data data self) = self
  ∧ match result (on_new_pow_data data self) with
    | Return _ =>
        ∃ args, length args = 7
          ∧ emitted (on_new_pow_data data self) =
              [osc_send_message "/pow_proportion" args]
    | Raise _ => emitted (on_new_pow_data data self) = []
    end.
Proof.
  destruct (on_new_pow_data_cases data self)
    as [[_ ->]|[(_ & _ & ->)|(_ & _ & args & Hargs & ->)]]; simpl;
    split; try reflexivity.
  exists args. split; [exact Hargs | reflexivity].
Qed.

(** X3: with [flag] false, every vector of ten samples or more whose sum is
    not zero makes the handler return after sending the seven integer zeros,
    once, on "/pow_proportion": the message does not depend on the samples. *)
Theorem disconnected_pow_sends_seven_zeros (data : pow_data) (self : Subcribe) :
  10 ≤ length (pow data) →
  is_zero (py_sum (pow data)) = false →
  flag self = false →
  result (on_new_pow_data data self) = Return ()
  ∧ osc_messages (on_new_pow_data data self) =
      [("/pow_proportion",
        [VInt 0; VInt 0; VInt 0; VInt 0; VInt 0; VInt 0; VInt 0])].
Proof.
  intros Hlen Hz Hf.
  rewrite (on_new_pow_data_runs data self Hlen Hz), Hf.
  split; reflexivity.
Qed.

Lemma disconnected_pow_sends_seven_zeros_witness :
  result (on_new_pow_data (samples theta_at_T7_T8) initial) = Return ()
  ∧ osc_messages (on_new_pow_data (samples theta_at_T7_T8) initial) =
      [("/pow_proportion",
        [VInt 0; VInt 0; VInt 0; VInt 0; VInt 0; VInt 0; VInt 0])].
Proof.
  apply (disconnected_pow_sends_seven_zeros (samples theta_at_T7_T8) initial).
  - simpl; lia.
  - reflexivity.
  - reflexivity.
Defined.

(** ** Edge behaviour of the device handler *)

Lemma on_new_dev_data_short (data : dev_data) (self : Subcribe) :
  length (dev data) < 3 →
  on_new_dev_data data self = Run (Raise IndexError) self [].
Proof.
  intros Hlen. unfold on_new_dev_data, getitem.
  rewrite (lookup_ge_None_2 (dev data) 2) by lia. reflexivity.
Qed.

(** The two ways the device handler can end. *)
Lemma on_new_dev_data_cases (data : dev_data) (self : Subcribe) :
  (dev data !! 2 = None
   ∧ on_new_dev_data data self = Run (Raise IndexError) self [])
  ∨ (∃ q, dev data !! 2 = Some q
       ∧ on_new_dev_data data self =
           Run (Return ()) (set_flag (q >=? 50)%Z self) []
       ∧ (flag self = (q >=? 50)%Z →
          on_new_dev_data data self = Run (Return ()) self [])).
Proof.
  destruct (dev data !! 2) as [q|] eqn:Hq.
  - right. exists q. split; [reflexivity|].
    rewrite (on_new_dev_data_runs data q self Hq).
    destruct self as [f st pl ml]; simpl.
    destruct (Z.ltb_spec q 50), (Z.geb_spec q 50), f; simpl;
      try lia; split; try reflexivity; discriminate.
  - left. split; [reflexivity|].
    apply on_new_dev_data_short. apply lookup_ge_None_1 in Hq. lia.
Qed.

(** X4: on a ['dev'] list of fewer than three entries the device handler
    raises [IndexError]; the object, [flag] included, is left as it was and
    nothing is printed or sent. *)
Theorem dev_handler_short_list (data : dev_data) (self : Subcribe) :
  length (dev data) < 3 →
  on_new_dev_data data self = Run (Raise IndexError) self [].
Proof.
  intros Hlen.
  destruct (on_new_dev_data_cases data self) as [[_ ->]|(q & Hq & _)];
    [reflexivity|].
  apply lookup_lt_Some in Hq. lia.
Qed.

Lemma dev_handler_short_list_witness :
  on_new_dev_data
    {| signal := 1%float; dev := [4; 100]%Z; batteryPercent := 80;
       dev_time := 0%float |} connected = Run (Raise IndexError) connected [].
Proof.
  apply dev_handler_short_list. simpl; lia.
Defined.

(** X5: the device handler is silent and touches [flag] only: whatever the
    sample, it prints nothing, sends nothing on OSC, makes no Cortex call,
    and leaves [streams], [pow_labels] and [met_labels] as they were. *)
Theorem dev_handler_silent_and_flag_only (data : dev_data) (self : Subcribe) :
  emitted (on_new_dev_data data self) = []
  ∧ streams (self_after (on_new_dev_data data self)) = streams self
  ∧ pow_labels (self_after (on_new_dev_data data self)) = pow_labels self
  ∧ met_labels (self_after (on_new_dev_data data self)) = met_labels self.
Proof.
  destruct (on_new_dev_data_cases data self) as [[_ ->]|(q & _ & -> & _)];
    repeat split; reflexivity.
Qed.

(** X6: delivering the same device sample a second time changes nothing: the
    second delivery ends as the first did and leaves the object as the first
    left it. *)
Theorem dev_handler_idempotent (data : dev_data) (self : Subcribe) :
  on_new_dev_data data (self_after (on_new_dev_data data self)) =
    Run (result (on_new_dev_data data self))
        (self_after (on_new_dev_data data self)) [].
Proof.
  destruct (on_new_dev_data_cases data self) as [[_ H1]|(q & Hq & H1 & _)].
  - rewrite H1. simpl. exact H1.
  - rewrite H1. simpl.
    destruct (on_new_dev_data_cases data (set_flag (q >=? 50)%Z self))
      as [[Hnone _]|(q' & Hq' & _ & Hsame)]; [congruence|].
    assert (q' = q) as -> by congruence.
    apply Hsame. reflexivity.
Qed.

(** ** The flag across arbitrary calls *)

(** One call: [flag] becomes [d[2] >= 50] on a device sample that has an
    entry at index 2, and is kept by everything else. *)
Lemma invoke_flag (c : call) (self : Subcribe) :
  flag (self_after (invoke c self)) =
    match quality_of c with
    | Some q => (q >=? 50)%Z
    | None => flag self
    end.
Proof.
  destruct c as [ev|st h|st|st|]; simpl; try reflexivity.
  - destruct ev as [|data|data|data|data|data|data|e]; simpl;
      try reflexivity.
    + unfold on_create_session_done, read_attr. run_body.
      destruct (streams self); reflexivity.
    + unfold on_new_data_labels. run_body.
      repeat case_bool_decide; reflexivity.
    + destruct (on_new_dev_data_cases data self)
        as [[-> ->]|(q & -> & -> & _)]; reflexivity.
    + rewrite on_new_pow_data_keeps_self. reflexivity.
  - unfold start. case_bool_decide; reflexivity.
Qed.

Lemma after_cons (c : call) (cs : list call) (self : Subcribe) :
  after (c :: cs) self = after cs (self_after (invoke c self)).
Proof. reflexivity. Qed.

Lemma after_keeps_flag (cs : list call) (self : Subcribe) :
  Forall (λ c, quality_of c = None) cs →
  flag (after cs self) = flag self.
Proof.
  intros Hcs. revert self.
  induction Hcs as [|c cs Hc _ IH]; intros self; [reflexivity|].
  unfold after in *; simpl. rewrite IH, invoke_flag, Hc. reflexivity.
Qed.

(** X7: after any series of calls, of any kind and in any order, [flag] is
    [q >= 50] for the entry [q] read from the latest device sample that had
    an entry at index 2, and is unchanged if the series delivered no such
    sample (device samples that are too short do not count). *)
Theorem flag_is_latest_quality (cs : list call) (self : Subcribe) :
  flag (after cs self) =
    match last_quality cs with
    | Some q => (q >=? 50)%Z
    | None => flag self
    end.
Proof.
  induction cs as [|c cs IH] using rev_ind; [reflexivity|].
  rewrite after_app. unfold after at 1; simpl.
  rewrite invoke_flag. unfold last_quality in *.
  rewrite omap_app, last_app. simpl.
  destruct (quality_of c) as [q|]; simpl; [reflexivity | exact IH].
Qed.

(** X8: what a band-power vector (ten samples or more, sum not zero) sends
    is decided by the latest device sample: once a sample with [d[2] = q] has
    been delivered, and whatever calls without a readable device sample
    follow, the message is the computed seven floats if [q >= 50] and the
    seven integer zeros if [q < 50], whatever [flag] was before. *)
Theorem quality_gates_pow_message
    (gate : dev_data) (q : Z) (cs : list call) (data : pow_data)
    (self : Subcribe) :
  dev gate !! 2 = Some q →
  Forall (λ c, quality_of c = None) cs →
  10 ≤ length (pow data) →
  is_zero (py_sum (pow data)) = false →
  let self' := after (Event (new_dev_data gate) :: cs) self in
  let v i := nth i (pow data) 0%float in
  let p b := ((v b + v (5 + b)%nat) / py_sum (pow data))%float in
  let theta := p 0 in let alpha := p 1 in let beta_low := p 2 in
  let beta_high := p 3 in let gamma := p 4 in
  osc_messages (on_new_pow_data data self') =
    [("/pow_proportion",
      if (q >=? 50)%Z
      then [VFloat theta; VFloat alpha; VFloat beta_low; VFloat beta_high;
            VFloat gamma; VFloat (theta + alpha)%float;
            VFloat (beta_low + beta_high + gamma)%float]
      else [VInt 0; VInt 0; VInt 0; VInt 0; VInt 0; VInt 0; VInt 0])].
Proof.
  intros Hq Hcs Hlen Hz self' v p theta alpha beta_low beta_high gamma.
  assert (flag self' = (q >=? 50)%Z) as Hf.
  { subst self'.
    rewrite after_cons, (after_keeps_flag cs _ Hcs), invoke_flag. simpl.
    rewrite Hq. reflexivity. }
  rewrite (on_new_pow_data_runs data self' Hlen Hz), Hf.
  reflexivity.
Qed.

Lemma quality_gates_pow_message_witness :
  osc_messages
    (on_new_pow_data (samples (replicate 25 2%float))
       (after [Event (new_dev_data (dev_sample 30));
               Event (new_pow_data (samples ten_ones)); Sub ["pow"]]
          connected)) =
    [("/pow_proportion",
      [VInt 0; VInt 0; VInt 0; VInt 0; VInt 0; VInt 0; VInt 0])].
Proof.
  apply (quality_gates_pow_message (dev_sample 30) 30%Z
           [Event (new_pow_data (samples ten_ones)); Sub ["pow"]]
           (samples (replicate 25 2%float)) connected).
  - reflexivity.
  - repeat constructor.
  - simpl; lia.
  - reflexivity.
Defined.

(** ** Session creation without [start] *)

(** X9: as long as [start] has never been called on the object [__init__]
    built, whatever other calls were made, the session-created callback
    prints its line and then raises [AttributeError] (the attribute
    [streams] does not exist yet): no subscribe request is made. *)
Theorem session_created_before_start_raises
    (cs : list call) (a b c : string) (d : Z) :
  Forall (λ c, ∀ st h, c ≠ Start st h) cs →
  let self := after cs (__init__ a b c d) in
  handler create_session_done self =
    Run (Raise AttributeError) self
      [print (text_line "on_create_session_done")]
  ∧ sub_requests (handler create_session_done self) = [].
Proof.
  intros Hcs self.
  assert (streams self = None) as Hst.
  { subst self. rewrite (after_keeps_streams cs _ Hcs). reflexivity. }
  assert (handler create_session_done self =
            Run (Raise AttributeError) self
              [print (text_line "on_create_session_done")]) as ->.
  { simpl. unfold on_create_session_done, read_attr. run_body.
    rewrite Hst. reflexivity. }
  split; reflexivity.
Qed.

Lemma session_created_before_start_raises_witness :
  let self :=
    after [Event (new_dev_data (dev_sample 80)); Sub ["pow"]] initial in
  handler create_session_done self =
    Run (Raise AttributeError) self
      [print (text_line "on_create_session_done")]
  ∧ sub_requests (handler create_session_done self) = [].
Proof.
  apply (session_created_before_start_raises
           [Event (new_dev_data (dev_sample 80)); Sub ["pow"]]
           "client_id" "client_secret" "127.0.0.1" 9000).
  repeat constructor; discriminate.
Defined.

(** ** Calls that leave the object alone *)

Lemma invoke_without_assignment (c : call) (self : Subcribe) :
  assigns c = false → self_after (invoke c self) = self.
Proof.
  intros Hc. destruct c as [ev|st h|st|st|]; simpl in *;
    try reflexivity; try discriminate.
  destruct ev as [|data|data|data|data|data|data|e]; simpl in *;
    try reflexivity; try discriminate.
  - unfold on_create_session_done, read_attr. run_body.
    destruct (streams self); reflexivity.
  - apply on_new_pow_data_keeps_self.
Qed.

(** X10: the session-created callback, the eeg, motion, metric, band-power
    and error handlers, [sub], [unsub] and [on_close] never assign an
    attribute.  After any series of them the object is what it was, so every
    later call does exactly what it would have done before; in particular
    [on_close] leaves no trace in the object, and the handlers run after it
    as they did before. *)
Theorem calls_without_assignment_leave_no_trace
    (cs : list call) (c : call) (self : Subcribe) :
  Forall (λ c, assigns c = false) cs →
  after cs self = self ∧ invoke c (after cs self) = invoke c self.
Proof.
  intros Hcs.
  assert (after cs self = self) as ->; [|split; reflexivity].
  induction Hcs as [|c' cs Hc _ IH]; [reflexivity|].
  rewrite after_cons, (invoke_without_assignment c' self Hc). exact IH.
Qed.

Lemma calls_without_assignment_leave_no_trace_witness :
  after [Close; Event (new_pow_data (samples ten_ones)); Unsub ["pow"]]
    connected = connected
  ∧ invoke (Event (new_pow_data (samples theta_at_T7_T8)))
      (after [Close; Event (new_pow_data (samples ten_ones)); Unsub ["pow"]]
         connected) =
    invoke (Event (new_pow_data (samples theta_at_T7_T8))) connected.
Proof.
  apply (calls_without_assignment_leave_no_trace
           [Close; Event (new_pow_data (samples ten_ones)); Unsub ["pow"]]).
  repeat constructor.
Defined.

(** ** Labels across calls *)

(** X11: the labels handler always returns, after printing one line with
    the stream name and the labels; it never touches [flag] or [streams],
    changes [pow_labels] only for the name "pow" and [met_labels] only for
    the name "met": labels announced for one of the two never replace the
    other's. *)
Theorem labels_handler_changes_one_slot (data : labels_data) (self : Subcribe) :
  result (on_new_data_labels data self) = Return ()
  ∧ emitted (on_new_data_labels data self) =
      [print (labels_are (streamName data) (labels data))]
  ∧ flag (self_after (on_new_data_labels data self)) = flag self
  ∧ streams (self_after (on_new_data_labels data self)) = streams self
  ∧ (streamName data ≠ "pow" →
       pow_labels (self_after (on_new_data_labels data self)) =
         pow_labels self)
  ∧ (streamName data ≠ "met" →
       met_labels (self_after (on_new_data_labels data self)) =
         met_labels self).
Proof.
  unfold on_new_data_labels. run_body.
  repeat case_bool_decide; simpl; repeat split; try reflexivity;
    intros; congruence.
Qed.

Lemma labels_handler_changes_one_slot_witness :
  pow_labels
    (self_after
       (on_new_data_labels {| streamName := "met"; labels := ["eng"] |}
          (set_pow_labels ["AF3/theta"] initial))) = Some ["AF3/theta"].
Proof.
  apply (labels_handler_changes_one_slot
           {| streamName := "met"; labels := ["eng"] |}
           (set_pow_labels ["AF3/theta"] initial)).
  discriminate.
Defined.

(** One call keeps the labels stored for a name unless it announces labels
    for that very name. *)
Lemma invoke_keeps_stored_labels (name : string) (c : call) (self : Subcribe) :
  (∀ data, c = Event (new_data_labels data) → streamName data ≠ name) →
  stored_labels name (self_after (invoke c self)) = stored_labels name self.
Proof.
  intros Hc. destruct c as [ev|st h|st|st|]; simpl; try reflexivity.
  - destruct ev as [|data|data|data|data|data|data|e]; simpl;
      try reflexivity.
    + unfold on_create_session_done, read_attr. run_body.
      destruct (streams self); reflexivity.
    + specialize (Hc data eq_refl).
      unfold on_new_data_labels, stored_labels. run_body.
      repeat case_bool_decide; simpl; try reflexivity; congruence.
    + destruct (on_new_dev_data_cases data self)
        as [[_ ->]|(q & _ & -> & _)]; reflexivity.
    + rewrite on_new_pow_data_keeps_self. reflexivity.
  - unfold start. destruct (bool_decide (h ≠ "")); reflexivity.
Qed.

(** X12: labels announced for "pow" or "met" stay stored through every later
    call, of any kind, until labels are announced again for the same name:
    reading them after any such series gives the announced list. *)
Theorem labels_persist_until_reannounced
    (data : labels_data) (cs : list call) (self : Subcribe) :
  streamName data = "pow" ∨ streamName data = "met" →
  Forall (λ c, ∀ data', c = Event (new_data_labels data') →
               streamName data' ≠ streamName data) cs →
  stored_labels (streamName data)
    (after (Event (new_data_labels data) :: cs) self) = Some (labels data).
Proof.
  intros Hname Hcs. rewrite after_cons.
  assert (stored_labels (streamName data)
            (self_after (invoke (Event (new_data_labels data)) self)) =
          Some (labels data)) as Hnow.
  { simpl. unfold on_new_data_labels, stored_labels. run_body.
    destruct Hname as [H|H]; rewrite H; reflexivity. }
  revert Hnow. generalize (self_after (invoke (Event (new_data_labels data)) self)).
  induction Hcs as [|c cs Hc _ IH]; intros s Hs; [exact Hs|].
  rewrite after_cons. apply IH.
  rewrite (invoke_keeps_stored_labels _ c s Hc). exact Hs.
Qed.

Lemma labels_persist_until_reannounced_witness :
  stored_labels "pow"
    (after [Event (new_data_labels
                     {| streamName := "pow"; labels := ["AF3/theta"] |});
            Event (new_data_labels
                     {| streamName := "met"; labels := ["eng"] |});
            Start ["pow"] ""; Event (new_dev_data (dev_sample 80))]
       initial) = Some ["AF3/theta"].
Proof.
  apply (labels_persist_until_reannounced
           {| streamName := "pow"; labels := ["AF3/theta"] |}
           [Event (new_data_labels {| streamName := "met"; labels := ["eng"] |});
            Start ["pow"] ""; Event (new_dev_data (dev_sample 80))] initial).
  - left; reflexivity.
  - repeat constructor; intros data' Heq; try discriminate Heq.
    injection Heq as <-. discriminate.
Defined.

(** ** Which calls raise, and what a raising call has done *)

(** X13: only three calls can raise, each for one reason: the
    session-created callback raises [AttributeError] when [start] has not
    set [streams]; the device handler raises [IndexError] on a list of fewer
    than three entries; the band-power handler raises [IndexError] on fewer
    than ten samples and [ZeroDivisionError] on a zero sum.  [start], [sub],
    [unsub], [on_close] and the other handlers always return. *)
Theorem calls_that_can_raise (c : call) (self : Subcribe) (e : exn) :
  result (invoke c self) = Raise e →
  (c = Event create_session_done ∧ e = AttributeError ∧ streams self = None)
  ∨ (∃ data, c = Event (new_dev_data data) ∧ e = IndexError
       ∧ length (dev data) < 3)
  ∨ (∃ data, c = Event (new_pow_data data)
       ∧ ((e = IndexError ∧ length (pow data) < 10)
          ∨ (e = ZeroDivisionError ∧ 10 ≤ length (pow data)
             ∧ is_zero (py_sum (pow data)) = true))).
Proof.
  intros Hr. destruct c as [ev|st h|st|st|]; simpl in Hr;
    try discriminate Hr.
  - destruct ev as [|data|data|data|data|data|data|err]; simpl in Hr;
      try discriminate Hr.
    + left. revert Hr. unfold on_create_session_done, read_attr. run_body.
      destruct (streams self); simpl; intros Hr; [discriminate Hr|].
      injection Hr as <-. done.
    + revert Hr. unfold on_new_data_labels. run_body.
      repeat case_bool_decide; discriminate.
    + right; left. exists data.
      destruct (on_new_dev_data_cases data self)
        as [[Hnone H]|(q & _ & H & _)]; rewrite H in Hr; simpl in Hr;
        [|discriminate Hr].
      injection Hr as <-. apply lookup_ge_None_1 in Hnone.
      repeat split. lia.
    + right; right. exists data.
      destruct (on_new_pow_data_cases data self)
        as [[Hlen H]|[(Hlen & Hz & H)|(_ & _ & args & _ & H)]];
        rewrite H in Hr; simpl in Hr; [| |discriminate Hr];
        injection Hr as <-; (split; [reflexivity|]); [left|right]; done.
  - revert Hr. unfold start. case_bool_decide; discriminate.
Qed.

Lemma calls_that_can_raise_witness :
  (Event create_session_done = Event create_session_done
   ∧ AttributeError = AttributeError ∧ streams initial = None)
  ∨ (∃ data, Event create_session_done = Event (new_dev_data data)
       ∧ AttributeError = IndexError ∧ length (dev data) < 3)
  ∨ (∃ data, Event create_session_done = Event (new_pow_data data)
       ∧ ((AttributeError = IndexError ∧ length (pow data) < 10)
          ∨ (AttributeError = ZeroDivisionError ∧ 10 ≤ length (pow data)
             ∧ is_zero (py_sum (pow data)) = true))).
Proof.
  apply (calls_that_can_raise (Event create_session_done) initial
           AttributeError).
  reflexivity.
Defined.

(** X14: a call that raises has changed nothing: the object is as it was
    before the call, and all the call did before raising is print; no OSC
    message was sent and no request made on the Cortex client. *)
Theorem raising_call_changes_nothing (c : call) (self : Subcribe) (e : exn) :
  result (invoke c self) = Raise e →
  self_after (invoke c self) = self
  ∧ Forall (λ eff, ∃ p, eff = print p) (emitted (invoke c self)).
Proof.
  intros Hr. destruct c as [ev|st h|st|st|]; simpl in *;
    try discriminate Hr.
  - destruct ev as [|data|data|data|data|data|data|err]; simpl in *;
      try discriminate Hr.
    + revert Hr. unfold on_create_session_done, read_attr. run_body.
      destruct (streams self); simpl; intros Hr; [discriminate Hr|].
      split; [reflexivity|]. repeat constructor. eexists; reflexivity.
    + revert Hr. unfold on_new_data_labels. run_body.
      repeat case_bool_decide; discriminate.
    + destruct (on_new_dev_data_cases data self)
        as [[_ H]|(q & _ & H & _)]; rewrite H in *; simpl in *;
        [|discriminate Hr].
      split; [reflexivity | constructor].
    + destruct (on_new_pow_data_cases data self)
        as [[_ H]|[(_ & _ & H)|(_ & _ & args & _ & H)]];
        rewrite H in *; simpl in *; try discriminate Hr;
        (split; [reflexivity | constructor]).
  - revert Hr. unfold start. case_bool_decide; discriminate.
Qed.

Lemma raising_call_changes_nothing_witness :
  self_after
    (invoke (Event (new_pow_data (samples (replicate 25 0%float)))) connected)
    = connected
  ∧ Forall (λ eff, ∃ p, eff = print p)
      (emitted
         (invoke (Event (new_pow_data (samples (replicate 25 0%float))))
            connected)).
Proof.
  apply (raising_call_changes_nothing
           (Event (new_pow_data (samples (replicate 25 0%float)))) connected
           ZeroDivisionError).
  reflexivity.
Defined.

(** ** Which call reaches which client *)

(** Case analysis on a call, down to the list of effects it emits. *)
Ltac call_effects c self :=
  destruct c as [[|?data|?data|?data|?data|?data|?data|?err]|?st ?h|?st|?st|];
    simpl;
    [ unfold on_create_session_done, read_attr, sub; run_body;
      destruct (streams self) eqn:?Hst; simpl
    | unfold on_new_data_labels; run_body; repeat case_bool_decide; simpl
    | | |
      match goal with
      | |- context [on_new_dev_data ?d self] =>
          destruct (on_new_dev_data_cases d self)
            as [[_ ->]|(?q & _ & -> & _)]; simpl
      end
    | |
      match goal with
      | |- context [on_new_pow_data ?d self] =>
          destruct (on_new_pow_data_cases d self)
            as [[_ ->]|[(_ & _ & ->)|(_ & _ & ?args & ?Hargs & ->)]]; simpl
      end
    | | unfold start; run_body; case_bool_decide; simpl
    | | | ].

(** Membership in a list of effects written out. *)
Ltac effect_in :=
  repeat match goal with
  | H : _ ∈ [] |- _ => apply elem_of_nil in H; destruct H
  | H : _ ∈ _ :: _ |- _ => apply elem_of_cons in H as [H|H]
  end;
  simplify_eq.

(** X15: the OSC client receives messages from the band-power handler only,
    always on "/pow_proportion" and always of seven values: no label, eeg,
    motion, metric, device or error event, and no method, sends anything;
    and the OSC client is closed by [on_close] only. *)
Theorem osc_reached_by_pow_and_close_only (c : call) (self : Subcribe) :
  (∀ address args,
     osc_send_message address args ∈ emitted (invoke c self) →
     address = "/pow_proportion" ∧ length args = 7
     ∧ ∃ data, c = Event (new_pow_data data))
  ∧ (osc_close ∈ emitted (invoke c self) → c = Close).
Proof.
  call_effects c self; split; intros; effect_in; eauto.
Qed.

Lemma osc_reached_by_pow_and_close_only_witness :
  "/pow_proportion" = "/pow_proportion"
  ∧ length [VInt 0; VInt 0; VInt 0; VInt 0; VInt 0; VInt 0; VInt 0] = 7
  ∧ ∃ data, Event (new_pow_data (samples ten_ones)) = Event (new_pow_data data).
Proof.
  apply (proj1 (osc_reached_by_pow_and_close_only
                  (Event (new_pow_data (samples ten_ones))) initial)).
  apply list_elem_of_singleton. reflexivity.
Defined.

(** X16: each request on the Cortex client has one origin.  The connection
    is opened by [start] only, which names a wanted headset only when given a
    non-empty id; a subscribe request comes from [sub] or from the
    session-created callback (for the list [start] recorded) and from no
    data or error handler; an unsubscribe request from [unsub] only; the
    connection is closed by [on_close] only. *)
Theorem cortex_requests_by_call (c : call) (self : Subcribe) :
  (c_open ∈ emitted (invoke c self) → ∃ st h, c = Start st h)
  ∧ (∀ h, c_set_wanted_headset h ∈ emitted (invoke c self) →
       h ≠ "" ∧ ∃ st, c = Start st h)
  ∧ (∀ st, c_sub_request st ∈ emitted (invoke c self) →
       c = Sub st ∨ (c = Event create_session_done ∧ streams self = Some st))
  ∧ (∀ st, c_unsub_request st ∈ emitted (invoke c self) → c = Unsub st)
  ∧ (c_close ∈ emitted (invoke c self) → c = Close).
Proof.
  call_effects c self; repeat split; intros; effect_in; eauto.
Qed.

Lemma cortex_requests_by_call_witness :
  "Insight-1" ≠ "" ∧ ∃ st, Start ["pow"] "Insight-1" = Start st "Insight-1".
Proof.
  apply (proj1 (proj2 (cortex_requests_by_call
                         (Start ["pow"] "Insight-1") initial))).
  apply elem_of_cons. left. reflexivity.
Defined.
